(** * StandardValidationPipe: a shallow embedding and its properties

    The pipe of [src/pipes/standard-validation.pipe.ts] works on values of
    unknown shape: the constructor is handed a schema or an options record,
    [transform] an arbitrary request value, and the validator and the
    exception factory are third-party functions.  The embedding therefore
    keeps JavaScript's dynamic values ([JsValue]) and the operators the pipe
    applies to them ([typeof], truthiness, [in], [??], [instanceof]); every
    method of the class is one definition of the same name. *)

From Stdlib Require Import String List ZArith Bool Lia.
Import ListNotations.
Open Scope string_scope.

Set Warnings "-register-all".

(** ** JavaScript values *)

(** Function objects are compared by identity.  The five global constructors
    that [isPrimitive] lists have an identity of their own; every other
    function (a class, a validator's [validate], an exception factory) is
    numbered. *)
Inductive FunId : Type :=
| GlobalString
| GlobalBoolean
| GlobalNumber
| GlobalArray
| GlobalObject
| UserFunction (n : nat).

(** Objects list the properties that a read reaches, own or inherited.
    [JHttpException response status] is an instance of Nest's [HttpException]
    (or of a subclass) built from a response and a status,
    [JBadRequestException x] is the result of [new BadRequestException(x)],
    and [JTypeError] is the error the engine raises on a bad operand.
    [JPromise true v] is a promise fulfilled with [v], [JPromise false e] one
    rejected with [e].  Numbers are the integers and NaN: the pipe never
    computes with a number. *)
Inductive JsValue : Type :=
| JUndefined
| JNull
| JBoolean (b : bool)
| JNumber (n : Z)
| JNaN
| JString (s : string)
| JSymbol (description : string)
| JArray (elements : list JsValue)
| JObject (props : list (string * JsValue))
| JFunction (f : FunId) (props : list (string * JsValue))
| JPromise (fulfilled : bool) (settled : JsValue)
| JHttpException (response status : JsValue)
| JBadRequestException (objectOrError : JsValue)
| JTypeError.

(** The outcome of evaluating an expression or a function body: a value, or
    a thrown value.  For the [async] method [transform], [Return v] says that
    the body returned [v] (the promise it hands out is resolved with [v]) and
    [Throw e] that the promise is rejected with [e]. *)
Inductive Completion (A : Type) : Type :=
| Return (a : A)
| Throw (e : JsValue).

Arguments Return {A} a.
Arguments Throw {A} e.

Definition bind {A B : Type} (c : Completion A) (k : A -> Completion B)
  : Completion B :=
  match c with
  | Return a => k a
  | Throw e => Throw e
  end.

Notation "x <- c ;; k" := (bind c (fun x => k))
  (at level 61, c at next level, right associativity).

Fixpoint mapM {A B : Type} (f : A -> Completion B) (l : list A)
  : Completion (list B) :=
  match l with
  | [] => Return []
  | a :: l' => b <- f a ;; bs <- mapM f l' ;; Return (b :: bs)
  end.

Definition FunId_eqb (f g : FunId) : bool :=
  match f, g with
  | GlobalString, GlobalString => true
  | GlobalBoolean, GlobalBoolean => true
  | GlobalNumber, GlobalNumber => true
  | GlobalArray, GlobalArray => true
  | GlobalObject, GlobalObject => true
  | UserFunction n, UserFunction m => Nat.eqb n m
  | _, _ => false
  end.

(** [typeof v] *)
Definition typeof (v : JsValue) : string :=
  match v with
  | JUndefined => "undefined"
  | JNull => "object"
  | JBoolean _ => "boolean"
  | JNumber _ | JNaN => "number"
  | JString _ => "string"
  | JSymbol _ => "symbol"
  | JFunction _ _ => "function"
  | JArray _ | JObject _ | JPromise _ _
  | JHttpException _ _ | JBadRequestException _ | JTypeError => "object"
  end.

(** ToBoolean, the test behind [if (v)], [!v] and [a && b]. *)
Definition truthy (v : JsValue) : bool :=
  match v with
  | JUndefined | JNull | JNaN => false
  | JBoolean b => b
  | JNumber n => negb (Z.eqb n 0)
  | JString s => negb (String.eqb s "")
  | _ => true
  end.

Definition is_null (v : JsValue) : bool :=
  match v with JNull => true | _ => false end.

Definition is_nullish (v : JsValue) : bool :=
  match v with JUndefined | JNull => true | _ => false end.

(** [a ?? b] *)
Definition nullish_coalesce (a b : JsValue) : JsValue :=
  if is_nullish a then b else a.

Fixpoint lookup (k : string) (props : list (string * JsValue))
  : option JsValue :=
  match props with
  | [] => None
  | (k', v) :: rest => if String.eqb k k' then Some v else lookup k rest
  end.

(** The properties of a value, for the names this pipe reads
    ([~standard], [validate], [issues], [value], [path], [message], [key],
    [schema] and the four option names).  Arrays, strings, promises and
    exception instances have none of them, apart from the [message] of an
    exception instance, which this model does not give: no property below
    reads a member of an exception instance. *)
Definition properties (v : JsValue) : list (string * JsValue) :=
  match v with
  | JObject props => props
  | JFunction _ props => props
  | _ => []
  end.

(** [k in v], for [v] an object. *)
Definition has_property (v : JsValue) (k : string) : bool :=
  match lookup k (properties v) with Some _ => true | None => false end.

(** [v[k]], for [v] neither [undefined] nor [null]. *)
Definition get_property (v : JsValue) (k : string) : JsValue :=
  match lookup k (properties v) with Some x => x | None => JUndefined end.

(** [v.k] or [v[k]]: a TypeError on [undefined] and [null]. *)
Definition member (v : JsValue) (k : string) : Completion JsValue :=
  if is_nullish v then Throw JTypeError else Return (get_property v k).

Definition is_object (v : JsValue) : bool :=
  match v with
  | JArray _ | JObject _ | JFunction _ _ | JPromise _ _
  | JHttpException _ _ | JBadRequestException _ | JTypeError => true
  | _ => false
  end.

(** [k in v]: a TypeError when the right operand is not an object. *)
Definition in_operator (k : string) (v : JsValue) : Completion bool :=
  if is_object v then Return (has_property v k) else Throw JTypeError.

(** [a.map(f)] on an array; a value without a callable [map] gives a
    TypeError (of the values of this model only arrays have one). *)
Definition array_map (a : JsValue) (f : JsValue -> Completion JsValue)
  : Completion JsValue :=
  match a with
  | JArray elements => bs <- mapM f elements ;; Return (JArray bs)
  | _ => Throw JTypeError
  end.

(** A string is held as its UTF-8 bytes, and iterating it goes by code
    point: a continuation byte (10xxxxxx) belongs to the character that the
    byte before it is part of. *)
Definition is_continuation (c : Ascii.ascii) : bool :=
  match c with
  | Ascii.Ascii _ _ _ _ _ _ b6 b7 => b7 && negb b6
  end.

Definition continues (rest : string) : bool :=
  match rest with
  | String d _ => is_continuation d
  | EmptyString => false
  end.

Fixpoint code_points (s : string) : list string :=
  match s with
  | EmptyString => []
  | String c rest =>
      match code_points rest with
      | first :: others =>
          if continues rest then String c first :: others
          else String c EmptyString :: first :: others
      | [] => [String c EmptyString]
      end
  end.

Definition characters (s : string) : list JsValue :=
  map JString (code_points s).

(** [[...v]]: arrays and strings are the iterables of this model. *)
Definition spread (v : JsValue) : Completion JsValue :=
  match v with
  | JArray elements => Return (JArray elements)
  | JString s => Return (JArray (characters s))
  | _ => Throw JTypeError
  end.

(** ** The host: function calls and reflection *)

(** What the code cannot know about its surroundings: what a function object
    does when called, what [Reflect.getMetadata(key, target)] finds, and how
    a promise settles that is resolved with a thenable, an object whose
    [then] is callable: [adopt x] is [Return y] when the promise ends up
    fulfilled with [y] (the thenable, and any thenable it hands on in turn,
    having called its first callback) and [Throw e] when it ends up rejected
    with [e]. *)
Record Runtime : Type := {
  call : FunId -> list JsValue -> Completion JsValue;
  getMetadata : JsValue -> JsValue -> JsValue;
  adopt : JsValue -> Completion JsValue
}.

(** An object, other than a promise of the language, with a callable
    [then]. *)
Definition has_callable_then (v : JsValue) : bool :=
  match v with
  | JObject _ | JFunction _ _ =>
      match get_property v "then" with
      | JFunction _ _ => true
      | _ => false
      end
  | _ => false
  end.

(** [await Promise.resolve(v)]: a settled promise gives its value or throws
    its reason, a thenable is adopted, and any other value is handed back as
    it is. *)
Definition await_resolve (rt : Runtime) (v : JsValue) : Completion JsValue :=
  match v with
  | JPromise true x => Return x
  | JPromise false e => Throw e
  | _ => if has_callable_then v then adopt rt v else Return v
  end.

(** [f(args)] *)
Definition call_function (rt : Runtime) (f : JsValue) (args : list JsValue)
  : Completion JsValue :=
  match f with
  | JFunction id _ => call rt id args
  | _ => Throw JTypeError
  end.

(** [Reflect.getMetadata(key, target)]: a TypeError when the target is not
    an object. *)
Definition Reflect_getMetadata (rt : Runtime) (key target : JsValue)
  : Completion JsValue :=
  if is_object target then Return (getMetadata rt key target)
  else Throw JTypeError.

(** ** What the pipe takes from @nestjs/common *)

Inductive Paramtype : Type := Body | Query | Param | Custom.

Definition is_custom (t : Paramtype) : bool :=
  match t with Custom => true | _ => false end.

(** [ArgumentMetadata]; an absent [metatype] or [data] is [JUndefined]. *)
Record ArgumentMetadata : Type := {
  type : Paramtype;
  metatype : JsValue;
  data : JsValue
}.

(** [HttpStatus.BAD_REQUEST] *)
Definition BAD_REQUEST : JsValue := JNumber 400.

(** [e instanceof HttpException] *)
Definition instanceof_HttpException (e : JsValue) : bool :=
  match e with
  | JHttpException _ _ | JBadRequestException _ => true
  | _ => false
  end.

(** [e.getResponse()] and [e.getStatus()].  The response of a
    [BadRequestException] is what the framework makes of the constructor's
    argument, and is not given here. *)
Definition getResponse (e : JsValue) : option JsValue :=
  match e with
  | JHttpException response _ => Some response
  | _ => None
  end.

Definition getStatus (e : JsValue) : option JsValue :=
  match e with
  | JHttpException _ status => Some status
  | JBadRequestException _ => Some BAD_REQUEST
  | _ => None
  end.

(** ** The pipe *)

Record StandardValidationPipe : Type := {
  schema : JsValue;
  options : JsValue
}.

Definition isSchema (value : JsValue) : bool :=
  String.eqb (typeof value) "object"
  && negb (is_null value)
  && has_property value "~standard"
  && String.eqb (typeof (get_property value "~standard")) "object".

(** [new StandardValidationPipe(schemaOrOptions, options)]; an argument that
    is not passed is [JUndefined]. *)
Definition constructor (schemaOrOptions options : JsValue)
  : StandardValidationPipe :=
  if isSchema schemaOrOptions
  then {| schema := schemaOrOptions;
          options := nullish_coalesce options (JObject []) |}
  else {| schema := JUndefined;
          options := nullish_coalesce schemaOrOptions (JObject []) |}.

Definition primitives : list FunId :=
  [GlobalString; GlobalBoolean; GlobalNumber; GlobalArray; GlobalObject].

(** [primitives.includes(type)]: only a function object can be identical to
    one of the five constructors. *)
Definition isPrimitive (type : JsValue) : bool :=
  match type with
  | JFunction f _ => existsb (FunId_eqb f) primitives
  | _ => false
  end.

(** The arrow function that [normalizePath] maps over the path. *)
Definition normalizeSegment (segment : JsValue) : Completion JsValue :=
  hasKey <- (if String.eqb (typeof segment) "object"
             then in_operator "key" segment
             else Return false) ;;
  if hasKey then member segment "key" else Return segment.

Definition normalizePath (path : JsValue) : Completion JsValue :=
  if negb (truthy path) then Return (JArray [])
  else array_map path normalizeSegment.

(** The arrow function that [createException] maps over the issues. *)
Definition error_of_issue (issue : JsValue) : Completion JsValue :=
  issue_path <- member issue "path" ;;
  path <- normalizePath issue_path ;;
  message <- member issue "message" ;;
  Return (JObject [("path", path); ("message", message)]).

Section Pipe.

Variable rt : Runtime.

(** The constant of [src/constants.ts].  Its value plays no part: the pipe
    only passes it on to [Reflect.getMetadata]. *)
Variable SCHEMA_METADATA_KEY : JsValue.

Definition getSchemaFromType (type : JsValue) : Completion JsValue :=
  typeWithSchema_schema <- member type "schema" ;;
  if truthy typeWithSchema_schema then Return typeWithSchema_schema
  else Reflect_getMetadata rt SCHEMA_METADATA_KEY type.

Definition getSchema (this : StandardValidationPipe)
  (metadata : ArgumentMetadata) : Completion JsValue :=
  if truthy (schema this) then Return (schema this)
  else
    skip <- (if is_custom (type metadata)
             then flag <- member (options this) "validateCustomDecorators" ;;
                  Return (negb (truthy flag))
             else Return false) ;;
    if skip then Return JUndefined
    else
      let metatype := metatype metadata in
      configured <- member (options this) "expectedType" ;;
      let expectedType := nullish_coalesce configured metatype in
      if negb (truthy expectedType) || isPrimitive expectedType
      then Return JUndefined
      else getSchemaFromType expectedType.

Definition createException (this : StandardValidationPipe)
  (issues : JsValue) : Completion JsValue :=
  exceptionFactory <- member (options this) "exceptionFactory" ;;
  if truthy exceptionFactory
  then
    copy <- spread issues ;;
    exception <- call_function rt exceptionFactory [copy] ;;
    if instanceof_HttpException exception then Return exception
    else Return (JBadRequestException exception)
  else
    errorHttpStatusCode <- member (options this) "errorHttpStatusCode" ;;
    let statusCode := nullish_coalesce errorHttpStatusCode BAD_REQUEST in
    errors <- array_map issues error_of_issue ;;
    Return (JHttpException
              (JObject [("statusCode", statusCode);
                        ("message", JString "Validation failed");
                        ("errors", errors)])
              statusCode).

(** [transform] is [async]: see [Completion] for what [Return] and [Throw]
    stand for.  The validator is reached through [schema['~standard']], its
    result goes through [await Promise.resolve(...)], and the test of the
    outcome is ['issues' in result && result.issues]. *)
Definition transform (this : StandardValidationPipe) (value : JsValue)
  (metadata : ArgumentMetadata) : Completion JsValue :=
  schema <- getSchema this metadata ;;
  if negb (truthy schema) then Return value
  else
    standard <- member schema "~standard" ;;
    validate <- member standard "validate" ;;
    returned <- call_function rt validate [value] ;;
    result <- await_resolve rt returned ;;
    present <- in_operator "issues" result ;;
    failed <- (if present
               then issues <- member result "issues" ;; Return (truthy issues)
               else Return false) ;;
    if failed
    then
      issues <- member result "issues" ;;
      exception <- createException this issues ;;
      Throw exception
    else member result "value".

End Pipe.

(** ** The parts of [transform], by name *)

(** The awaited outcome of the validator:
    [await Promise.resolve(schema['~standard'].validate(value))]. *)
Definition validate (rt : Runtime) (schema value : JsValue)
  : Completion JsValue :=
  standard <- member schema "~standard" ;;
  validate_fn <- member standard "validate" ;;
  returned <- call_function rt validate_fn [value] ;;
  await_resolve rt returned.

(** ['issues' in result && result.issues], as a condition. *)
Definition has_issues (result : JsValue) : Completion bool :=
  present <- in_operator "issues" result ;;
  if present
  then issues <- member result "issues" ;; Return (truthy issues)
  else Return false.

(** The value is validated against the schema [schema]: what [transform]
    does once [getSchema] has found one. *)
Definition validateWith (rt : Runtime) (this : StandardValidationPipe)
  (schema value : JsValue) : Completion JsValue :=
  result <- validate rt schema value ;;
  failed <- has_issues result ;;
  if failed
  then
    issues <- member result "issues" ;;
    exception <- createException rt this issues ;;
    Throw exception
  else member result "value".

Arguments getSchemaFromType rt SCHEMA_METADATA_KEY type : simpl never.

(** ** Issues as the schema contract declares them *)

(** Modelled from the spec: the types [Issue] and [PathSegment] of
    [src/interfaces/standard-schema.interface.ts], whose declarations are
    missing.  An issue has a message string and an optional path, an ordered
    sequence of property keys or path-segment descriptors (objects with a
    [key] field). *)
Inductive PropertyKey : Type :=
| KeyString (s : string)
| KeyNumber (n : Z)
| KeySymbol (description : string).

Inductive Segment : Type :=
| RawKey (k : PropertyKey)
| PathSegment (key : PropertyKey).

Record Issue : Type := {
  issue_message : string;
  issue_path : option (list Segment)
}.

(** The flattened path in the spec's words: each segment is the raw property
    key, or the [key] field of a path-segment descriptor; an issue without a
    path has the empty one. *)
Definition flatten_segment (s : Segment) : PropertyKey :=
  match s with
  | RawKey k => k
  | PathSegment key => key
  end.

Definition flattened_path (i : Issue) : list PropertyKey :=
  match issue_path i with
  | None => []
  | Some segments => map flatten_segment segments
  end.

Definition js_of_key (k : PropertyKey) : JsValue :=
  match k with
  | KeyString s => JString s
  | KeyNumber n => JNumber n
  | KeySymbol d => JSymbol d
  end.

(** Reading a JavaScript value as a key, a segment, an issue: [None] when
    the value is not of the declared type. *)
Definition key_of_js (v : JsValue) : option PropertyKey :=
  match v with
  | JString s => Some (KeyString s)
  | JNumber n => Some (KeyNumber n)
  | JSymbol d => Some (KeySymbol d)
  | _ => None
  end.

Definition segment_of_js (v : JsValue) : option Segment :=
  match v with
  | JObject props =>
      match lookup "key" props with
      | Some k => option_map PathSegment (key_of_js k)
      | None => None
      end
  | _ => option_map RawKey (key_of_js v)
  end.

Fixpoint traverse {A B : Type} (f : A -> option B) (l : list A)
  : option (list B) :=
  match l with
  | [] => Some []
  | a :: l' =>
      match f a, traverse f l' with
      | Some b, Some bs => Some (b :: bs)
      | _, _ => None
      end
  end.

Definition issue_of_js (v : JsValue) : option Issue :=
  match v with
  | JObject props =>
      match lookup "message" props with
      | Some (JString m) =>
          match lookup "path" props with
          | None | Some JUndefined =>
              Some {| issue_message := m; issue_path := None |}
          | Some (JArray segments) =>
              option_map
                (fun p => {| issue_message := m; issue_path := Some p |})
                (traverse segment_of_js segments)
          | Some _ => None
          end
      | _ => None
      end
  | _ => None
  end.

(** The entry of the [errors] array that the spec promises for an issue. *)
Definition error_entry (i : Issue) : JsValue :=
  JObject [("path", JArray (map js_of_key (flattened_path i)));
           ("message", JString (issue_message i))].

(** A validation outcome that carries the issues [issues]. *)
Definition carries_issues (result : JsValue) (issues : list JsValue) : Prop :=
  is_object result = true /\
  lookup "issues" (properties result) = Some (JArray issues).

(** A success outcome: an object whose [issues] field is absent or
    [undefined]. *)
Definition is_success (result : JsValue) : bool :=
  is_object result &&
  match get_property result "issues" with JUndefined => true | _ => false end.

(** The status and the body that the spec promises for the default error. *)
Definition chosen_status (this : StandardValidationPipe) : JsValue :=
  nullish_coalesce (get_property (options this) "errorHttpStatusCode")
                   BAD_REQUEST.

Definition default_body (this : StandardValidationPipe) (issues : list Issue)
  : JsValue :=
  JObject [("statusCode", chosen_status this);
           ("message", JString "Validation failed");
           ("errors", JArray (map error_entry issues))].

(** The type that schema resolution starts from: the override of the
    options when there is one, else the declared type of the argument. *)
Definition expected_type (this : StandardValidationPipe)
  (metadata : ArgumentMetadata) : JsValue :=
  nullish_coalesce (get_property (options this) "expectedType")
                   (metatype metadata).

(** The custom-kind skip: a "custom" argument on a pipe whose
    [validateCustomDecorators] option does not hold. *)
Definition custom_skipped (this : StandardValidationPipe)
  (metadata : ArgumentMetadata) : bool :=
  is_custom (type metadata)
  && negb (truthy (get_property (options this) "validateCustomDecorators")).

(** No schema can be found for a type: it is absent, it is one of the five
    primitive wrappers, or it is a class with neither a static [schema] nor
    schema metadata. *)
Definition unresolvable (rt : Runtime) (K type : JsValue) : Prop :=
  type = JUndefined \/
  isPrimitive type = true \/
  (exists f props, type = JFunction f props /\
     get_property type "schema" = JUndefined /\
     getMetadata rt K type = JUndefined).

(** ** A host to run the pipe on

    Function 1 is a validator that accepts the integers and reports one issue
    on [["user", {key: "age"}]] for anything else, function 2 a validator
    that reports an empty list of issues, function 3 one whose outcome has
    the number 0 as [issues]; functions 4 and 5 are exception factories, the
    first returning a plain object, the second an [HttpException]; class 7
    carries a schema as decorator metadata, class 8 nothing, and class 9 has
    a static [schema]. *)

Definition sample_issue : JsValue :=
  JObject [("message", JString "Expected number");
           ("path", JArray [JString "user";
                            JObject [("key", JString "age")]])].

Definition sample_schema (n : nat) : JsValue :=
  JObject [("~standard",
            JObject [("version", JNumber 1);
                     ("validate", JFunction (UserFunction n) [])])].

Definition sample_call (f : FunId) (args : list JsValue)
  : Completion JsValue :=
  match f, args with
  | UserFunction 1, [JNumber n] => Return (JObject [("value", JNumber n)])
  | UserFunction 1, _ => Return (JObject [("issues", JArray [sample_issue])])
  | UserFunction 2, _ =>
      Return (JPromise true (JObject [("issues", JArray [])]))
  | UserFunction 3, _ =>
      Return (JObject [("issues", JNumber 0); ("value", JNumber 7)])
  | UserFunction 4, [issues] =>
      Return (JObject [("code", JString "X"); ("details", issues)])
  | UserFunction 5, _ =>
      Return (JHttpException (JString "Invalid") (JNumber 422))
  | _, _ => Return JUndefined
  end.

Definition sample_key : JsValue := JString "standard-schema:schema".

Definition sample_runtime : Runtime :=
  {| call := sample_call;
     getMetadata := fun _ target =>
       match target with
       | JFunction (UserFunction 7) _ => sample_schema 1
       | _ => JUndefined
       end;
     adopt := fun _ => Throw JTypeError |}.

Definition body_argument (metatype : JsValue) : ArgumentMetadata :=
  {| type := Body; metatype := metatype; data := JUndefined |}.

Definition custom_argument (metatype : JsValue) : ArgumentMetadata :=
  {| type := Custom; metatype := metatype; data := JString "input" |}.

Definition typed_sample_issue : Issue :=
  {| issue_message := "Expected number";
     issue_path := Some [RawKey (KeyString "user");
                         PathSegment (KeyString "age")] |}.

Definition with_option (name : string) (v : JsValue) : JsValue :=
  JObject [(name, v)].

Definition plain_class : JsValue := JFunction (UserFunction 8) [].

Definition decorated_class : JsValue := JFunction (UserFunction 7) [].

Definition dto_class : JsValue :=
  JFunction (UserFunction 9) [("schema", sample_schema 1)].

(** ** Names for the edge cases *)

Definition is_function (v : JsValue) : bool :=
  match v with JFunction _ _ => true | _ => false end.

Definition is_promise (v : JsValue) : bool :=
  match v with JPromise _ _ => true | _ => false end.

(** [schema['~standard'].validate], read without calling it. *)
Definition validator_of (schema : JsValue) : JsValue :=
  get_property (get_property schema "~standard") "validate".

(** A second host: validator 11 throws, 12 returns a rejected promise, 13
    and 14 give the same success, the one at once and the other through a
    promise, 15 reports one issue; function 16 is an exception factory that
    returns a plain object; every other function returns [undefined]. *)
Definition edge_call (f : FunId) (args : list JsValue) : Completion JsValue :=
  match f with
  | UserFunction 11 => Throw (JString "boom")
  | UserFunction 12 => Return (JPromise false (JString "boom"))
  | UserFunction 13 => Return (JObject [("value", JString "ok")])
  | UserFunction 14 => Return (JPromise true (JObject [("value", JString "ok")]))
  | UserFunction 15 => Return (JObject [("issues", JArray [sample_issue])])
  | UserFunction 16 => Return (JObject [("code", JString "X")])
  | _ => Return JUndefined
  end.

Definition edge_runtime : Runtime :=
  {| call := edge_call;
     getMetadata := fun _ _ => JUndefined;
     adopt := fun _ => Throw JTypeError |}.

Definition query_argument (metatype : JsValue) : ArgumentMetadata :=
  {| type := Query; metatype := metatype; data := JString "id" |}.

(** A third host, with thenables.  Validator 21 returns an object whose
    [then] hands on a success outcome, validator 22 an object that looks
    like a failure outcome but whose [then] hands on a success outcome, and
    validator 23 an object whose [then] hands on a failure outcome. *)
Definition thenable (n : nat) (props : list (string * JsValue)) : JsValue :=
  JObject (props ++ [("then", JFunction (UserFunction n) [])]).

Definition thenable_call (f : FunId) (args : list JsValue)
  : Completion JsValue :=
  match f with
  | UserFunction 21 => Return (thenable 31 [])
  | UserFunction 22 =>
      Return (thenable 31 [("issues", JArray [sample_issue])])
  | UserFunction 23 => Return (thenable 33 [])
  | _ => Return JUndefined
  end.

Definition thenable_runtime : Runtime :=
  {| call := thenable_call;
     getMetadata := fun _ _ => JUndefined;
     adopt := fun x =>
       match get_property x "then" with
       | JFunction (UserFunction 31) _ =>
           Return (JObject [("value", JNumber 2)])
       | JFunction (UserFunction 33) _ =>
           Return (JObject [("issues", JArray [sample_issue])])
       | _ => Throw JTypeError
       end |}.

(** * Properties *)

(** ** The constructor *)

Lemma isSchema_truthy (s : JsValue) : isSchema s = true -> truthy s = true.
Proof. destruct s; simpl; intros H; try discriminate; reflexivity. Qed.

Lemma nullish_coalesce_not_nullish (a : JsValue) :
  is_nullish (nullish_coalesce a (JObject [])) = false.
Proof. destruct a; reflexivity. Qed.

Lemma constructor_bound (s o : JsValue) :
  isSchema s = true ->
  constructor s o =
  {| schema := s; options := nullish_coalesce o (JObject []) |}.
Proof. intros H. unfold constructor. rewrite H. reflexivity. Qed.

Lemma constructor_type_driven (a b : JsValue) :
  isSchema a = false ->
  constructor a b =
  {| schema := JUndefined; options := nullish_coalesce a (JObject []) |}.
Proof. intros H. unfold constructor. rewrite H. reflexivity. Qed.

Lemma constructor_options_not_nullish (a b : JsValue) :
  is_nullish (options (constructor a b)) = false.
Proof.
  unfold constructor. destruct (isSchema a); simpl;
    apply nullish_coalesce_not_nullish.
Qed.

Lemma member_not_nullish (v : JsValue) (k : string) :
  is_nullish v = false -> member v k = Return (get_property v k).
Proof. intros H. unfold member. rewrite H. reflexivity. Qed.

Lemma member_object (v : JsValue) (k : string) :
  is_object v = true -> member v k = Return (get_property v k).
Proof. intros H. apply member_not_nullish. destruct v; try discriminate; reflexivity. Qed.

(** ** Schema-bound pipes *)

Lemma getSchema_bound (rt : Runtime) (K s o : JsValue) (md : ArgumentMetadata) :
  isSchema s = true -> getSchema rt K (constructor s o) md = Return s.
Proof.
  intros H. rewrite (constructor_bound s o H). unfold getSchema. simpl.
  rewrite (isSchema_truthy s H). reflexivity.
Qed.

Lemma transform_resolved (rt : Runtime) (K : JsValue)
  (this : StandardValidationPipe) (s v : JsValue) (md : ArgumentMetadata) :
  getSchema rt K this md = Return s -> truthy s = true ->
  transform rt K this v md = validateWith rt this s v.
Proof.
  intros G T. unfold transform, validateWith, validate, has_issues.
  rewrite G. simpl. rewrite T. simpl.
  destruct (member s "~standard") as [standard|]; [simpl|reflexivity].
  destruct (member standard "validate") as [f|]; [simpl|reflexivity].
  destruct (call_function rt f [v]) as [returned|]; [simpl|reflexivity].
  destruct (await_resolve rt returned) as [result|]; [simpl|reflexivity].
  destruct (in_operator "issues" result) as [present|]; reflexivity.
Qed.

Lemma transform_skipped (rt : Runtime) (K : JsValue)
  (this : StandardValidationPipe) (s v : JsValue) (md : ArgumentMetadata) :
  getSchema rt K this md = Return s -> truthy s = false ->
  transform rt K this v md = Return v.
Proof.
  intros G T. unfold transform. rewrite G. simpl. rewrite T. reflexivity.
Qed.

Lemma has_issues_success (result : JsValue) :
  is_success result = true -> has_issues result = Return false.
Proof.
  unfold is_success, has_issues, in_operator. intros H.
  apply andb_prop in H. destruct H as [O U]. rewrite O. simpl.
  destruct (has_property result "issues"); [|reflexivity].
  rewrite (member_object _ _ O). simpl.
  destruct (get_property result "issues"); try discriminate. reflexivity.
Qed.

(** C1. A schema-bound pipe hands back exactly the value that the success
    outcome of its schema carries. *)
Theorem transform_returns_success_value :
  forall (rt : Runtime) (K s o v : JsValue) (md : ArgumentMetadata)
         (result : JsValue),
    isSchema s = true ->
    validate rt s v = Return result ->
    is_success result = true ->
    transform rt K (constructor s o) v md = Return (get_property result "value").
Proof.
  intros rt K s o v md result HS HV HR.
  rewrite (transform_resolved rt K _ s v md (getSchema_bound rt K s o md HS)
             (isSchema_truthy s HS)).
  unfold validateWith. rewrite HV. simpl.
  rewrite (has_issues_success result HR). simpl.
  apply member_object. unfold is_success in HR.
  apply andb_prop in HR. tauto.
Qed.

(** C3. A pipe built with an explicit schema resolves to that schema whatever
    the argument descriptor says (its kind, its metatype) and whatever the
    options hold: neither the custom-kind skip nor the metatype chain, and so
    no reflection of the host, plays a part. *)
Theorem explicit_schema_always_used :
  forall (rt : Runtime) (K s o v : JsValue) (md : ArgumentMetadata),
    isSchema s = true ->
    getSchema rt K (constructor s o) md = Return s /\
    transform rt K (constructor s o) v md
      = validateWith rt (constructor s o) s v /\
    (forall (md' : ArgumentMetadata) (K' : JsValue)
            (reflect : JsValue -> JsValue -> JsValue),
        transform {| call := call rt; getMetadata := reflect;
                     adopt := adopt rt |} K'
                  (constructor s o) v md'
        = transform rt K (constructor s o) v md).
Proof.
  intros rt K s o v md HS. split; [|split].
  - apply getSchema_bound; assumption.
  - apply transform_resolved;
      [apply getSchema_bound | apply isSchema_truthy]; assumption.
  - intros md' K' reflect.
    rewrite (transform_resolved _ K' _ s v md'
               (getSchema_bound _ K' s o md' HS) (isSchema_truthy s HS)).
    rewrite (transform_resolved rt K _ s v md
               (getSchema_bound rt K s o md HS) (isSchema_truthy s HS)).
    reflexivity.
Qed.

(** ** The default error *)

Lemma normalizeSegment_typed (v : JsValue) (s : Segment) :
  segment_of_js v = Some s ->
  normalizeSegment v = Return (js_of_key (flatten_segment s)).
Proof.
  destruct v; simpl; intros H; try discriminate;
    try (injection H as <-; reflexivity).
  unfold normalizeSegment, in_operator, has_property, member, get_property.
  simpl. destruct (lookup "key" props) as [k|]; [|discriminate]. simpl.
  destruct k; simpl in H; try discriminate; injection H as <-; reflexivity.
Qed.

Lemma mapM_segments (vs : list JsValue) :
  forall p, traverse segment_of_js vs = Some p ->
  mapM normalizeSegment vs = Return (map js_of_key (map flatten_segment p)).
Proof.
  induction vs as [|v vs IH]; simpl; intros p H.
  - injection H as <-. reflexivity.
  - destruct (segment_of_js v) as [s|] eqn:E; [|discriminate].
    destruct (traverse segment_of_js vs) as [p'|]; [|discriminate].
    injection H as <-. rewrite (normalizeSegment_typed v s E). simpl.
    rewrite (IH p' eq_refl). reflexivity.
Qed.

Lemma normalizePath_segments (vs : list JsValue) :
  normalizePath (JArray vs) = (bs <- mapM normalizeSegment vs ;; Return (JArray bs)).
Proof. reflexivity. Qed.

Lemma error_of_issue_typed (v : JsValue) (i : Issue) :
  issue_of_js v = Some i -> error_of_issue v = Return (error_entry i).
Proof.
  destruct v; simpl; intros H; try discriminate.
  unfold error_of_issue, member, get_property. simpl.
  destruct (lookup "message" props) as [m|]; [|discriminate].
  destruct m; try discriminate.
  destruct (lookup "path" props) as [p|].
  - destruct p; try discriminate.
    + injection H as <-. reflexivity.
    + destruct (traverse segment_of_js elements) as [segs|] eqn:E;
        [|discriminate].
      simpl in H. injection H as <-.
      rewrite normalizePath_segments, (mapM_segments elements segs E).
      reflexivity.
  - injection H as <-. reflexivity.
Qed.

Lemma mapM_issues (vs : list JsValue) :
  forall issues, traverse issue_of_js vs = Some issues ->
  mapM error_of_issue vs = Return (map error_entry issues).
Proof.
  induction vs as [|v vs IH]; simpl; intros issues H.
  - injection H as <-. reflexivity.
  - destruct (issue_of_js v) as [i|] eqn:E; [|discriminate].
    destruct (traverse issue_of_js vs) as [is'|]; [|discriminate].
    injection H as <-. rewrite (error_of_issue_typed v i E). simpl.
    rewrite (IH is' eq_refl). reflexivity.
Qed.

Lemma createException_default (rt : Runtime) (this : StandardValidationPipe)
  (vs : list JsValue) (issues : list Issue) :
  is_nullish (options this) = false ->
  truthy (get_property (options this) "exceptionFactory") = false ->
  traverse issue_of_js vs = Some issues ->
  createException rt this (JArray vs)
  = Return (JHttpException (default_body this issues) (chosen_status this)).
Proof.
  intros N F T. unfold createException.
  rewrite (member_not_nullish _ "exceptionFactory" N). simpl. rewrite F.
  rewrite (member_not_nullish _ "errorHttpStatusCode" N). simpl.
  rewrite (mapM_issues vs issues T). reflexivity.
Qed.

Lemma has_issues_array (result : JsValue) (vs : list JsValue) :
  carries_issues result vs ->
  has_issues result = Return true /\
  member result "issues" = Return (JArray vs).
Proof.
  intros [O L]. unfold has_issues, in_operator, has_property.
  rewrite O, L. simpl. rewrite (member_object _ _ O).
  unfold get_property. rewrite L. split; reflexivity.
Qed.

Lemma validateWith_failure (rt : Runtime) (this : StandardValidationPipe)
  (s v result : JsValue) (vs : list JsValue) :
  validate rt s v = Return result ->
  carries_issues result vs ->
  validateWith rt this s v
  = (exception <- createException rt this (JArray vs) ;; Throw exception).
Proof.
  intros V C. destruct (has_issues_array result vs C) as [H M].
  unfold validateWith. rewrite V. simpl. rewrite H. simpl. rewrite M.
  reflexivity.
Qed.

Lemma transform_default_error (rt : Runtime) (K a b v : JsValue)
  (md : ArgumentMetadata) (s result : JsValue) (vs : list JsValue)
  (issues : list Issue) :
  getSchema rt K (constructor a b) md = Return s ->
  truthy s = true ->
  truthy (get_property (options (constructor a b)) "exceptionFactory") = false ->
  validate rt s v = Return result ->
  carries_issues result vs ->
  traverse issue_of_js vs = Some issues ->
  transform rt K (constructor a b) v md
  = Throw (JHttpException (default_body (constructor a b) issues)
                          (chosen_status (constructor a b))).
Proof.
  intros G T F V C D.
  rewrite (transform_resolved rt K _ s v md G T).
  rewrite (validateWith_failure rt _ s v result vs V C).
  rewrite (createException_default rt _ vs issues
             (constructor_options_not_nullish a b) F D).
  reflexivity.
Qed.

Lemma traverse_length {A B : Type} (f : A -> option B) (l : list A) :
  forall bs, traverse f l = Some bs -> length bs = length l.
Proof.
  induction l as [|a l IH]; simpl; intros bs H.
  - injection H as <-. reflexivity.
  - destruct (f a); [|discriminate].
    destruct (traverse f l) as [bs'|]; [|discriminate].
    injection H as <-. simpl. f_equal. apply IH. reflexivity.
Qed.

(** C2. Without a custom exception factory, a schema-bound pipe whose schema
    reports issues throws a structured error: its [errors] array has one
    entry per reported issue, in the order of the issues, and the [path] of
    each entry is the flattened path of its issue. *)
Theorem transform_errors_follow_issues :
  forall (rt : Runtime) (K s o v : JsValue) (md : ArgumentMetadata)
         (result : JsValue) (vs : list JsValue) (issues : list Issue),
    isSchema s = true ->
    truthy (get_property (options (constructor s o)) "exceptionFactory")
      = false ->
    validate rt s v = Return result ->
    carries_issues result vs ->
    traverse issue_of_js vs = Some issues ->
    exists (e response : JsValue) (errors : list JsValue),
      transform rt K (constructor s o) v md = Throw e /\
      getResponse e = Some response /\
      get_property response "errors" = JArray errors /\
      length errors = length vs /\
      forall (n : nat) (issue : Issue),
        nth_error issues n = Some issue ->
        exists entry : JsValue,
          nth_error errors n = Some entry /\
          get_property entry "path"
            = JArray (map js_of_key (flattened_path issue)).
Proof.
  intros rt K s o v md result vs issues HS F V C D.
  exists (JHttpException (default_body (constructor s o) issues)
                         (chosen_status (constructor s o))),
         (default_body (constructor s o) issues),
         (map error_entry issues).
  split; [|split; [|split; [|split]]].
  - apply (transform_default_error rt K s o v md s result vs issues);
      auto using getSchema_bound, isSchema_truthy.
  - reflexivity.
  - reflexivity.
  - rewrite length_map. apply (traverse_length issue_of_js); assumption.
  - intros n issue H. exists (error_entry issue). split.
    + rewrite nth_error_map, H. reflexivity.
    + reflexivity.
Qed.

(** ** Type-driven pipes *)

Lemma getSchema_type_driven (rt : Runtime) (K a b : JsValue)
  (md : ArgumentMetadata) :
  isSchema a = false ->
  getSchema rt K (constructor a b) md
  = if custom_skipped (constructor a b) md then Return JUndefined
    else if negb (truthy (expected_type (constructor a b) md))
            || isPrimitive (expected_type (constructor a b) md)
         then Return JUndefined
         else getSchemaFromType rt K (expected_type (constructor a b) md).
Proof.
  intros H. pose proof (constructor_options_not_nullish a b) as N.
  unfold getSchema, custom_skipped, expected_type.
  rewrite (constructor_type_driven a b H) in *. cbn [schema options] in *.
  cbn [truthy].
  rewrite (member_not_nullish _ "validateCustomDecorators" N).
  rewrite (member_not_nullish _ "expectedType" N).
  destruct (is_custom (type md)); simpl;
    destruct (truthy (get_property (nullish_coalesce a (JObject []))
                                   "validateCustomDecorators")); simpl;
    reflexivity.
Qed.

Lemma getSchemaFromType_class (rt : Runtime) (K : JsValue) (f : FunId)
  (props : list (string * JsValue)) :
  getSchemaFromType rt K (JFunction f props)
  = if truthy (get_property (JFunction f props) "schema")
    then Return (get_property (JFunction f props) "schema")
    else Return (getMetadata rt K (JFunction f props)).
Proof. reflexivity. Qed.

(** C4. On a type-driven pipe an argument of "custom" kind is passed through
    unchanged while [validateCustomDecorators] is unset or false, whatever
    schema its metatype carries; once the option is true the schema is
    resolved through the metatype chain as for any other kind, and the value
    is validated when that finds a schema. *)
Theorem custom_kind_needs_opt_in :
  forall (rt : Runtime) (K a b v : JsValue) (md : ArgumentMetadata),
    isSchema a = false ->
    type md = Custom ->
    let this := constructor a b in
    let flag := get_property (options this) "validateCustomDecorators" in
    ((flag = JUndefined \/ flag = JBoolean false) ->
       transform rt K this v md = Return v) /\
    (flag = JBoolean true ->
       getSchema rt K this md
       = (if negb (truthy (expected_type this md))
             || isPrimitive (expected_type this md)
          then Return JUndefined
          else getSchemaFromType rt K (expected_type this md)) /\
       forall s, getSchema rt K this md = Return s -> truthy s = true ->
                 transform rt K this v md = validateWith rt this s v).
Proof.
  intros rt K a b v md HS HC this flag. subst this flag. split.
  - intros F. apply (transform_skipped rt K _ JUndefined); [|reflexivity].
    rewrite (getSchema_type_driven rt K a b md HS).
    unfold custom_skipped. rewrite HC. destruct F as [-> | ->]; reflexivity.
  - intros F. split.
    + rewrite (getSchema_type_driven rt K a b md HS).
      unfold custom_skipped. rewrite HC, F. reflexivity.
    + intros s G T. apply transform_resolved; assumption.
Qed.

(** C5. A type-driven pipe that finds no schema (the declared or overridden
    type is absent, is one of String, Boolean, Number, Array and Object, or
    carries neither a static schema nor schema metadata) returns its input
    as it is, for every input and every kind of argument; it does not
    throw. *)
Theorem transform_passes_through_without_schema :
  forall (rt : Runtime) (K a b v : JsValue) (md : ArgumentMetadata),
    isSchema a = false ->
    unresolvable rt K (expected_type (constructor a b) md) ->
    transform rt K (constructor a b) v md = Return v.
Proof.
  intros rt K a b v md HS U.
  apply (transform_skipped rt K _ JUndefined); [|reflexivity].
  rewrite (getSchema_type_driven rt K a b md HS).
  destruct (custom_skipped (constructor a b) md); [reflexivity|].
  destruct U as [-> | [P | (f & props & -> & S & M)]].
  - reflexivity.
  - rewrite P, orb_true_r. reflexivity.
  - destruct (negb (truthy (JFunction f props)) || isPrimitive (JFunction f props));
      [reflexivity|].
    rewrite getSchemaFromType_class, S, M. reflexivity.
Qed.

(** C8. For a class that is not one of the primitive wrappers, the static
    [schema] property comes first: when the class has one (the read gives a
    schema, or any value that holds as a condition) it is the schema, and
    the metadata of the host is not looked at; the decorator metadata is the
    answer only when there is no static schema; and with neither of the two
    the value passes unvalidated. *)
Theorem static_schema_before_metadata :
  forall (rt : Runtime) (K a b : JsValue) (md : ArgumentMetadata)
         (f : FunId) (props : list (string * JsValue)),
    isSchema a = false ->
    custom_skipped (constructor a b) md = false ->
    expected_type (constructor a b) md = JFunction f props ->
    isPrimitive (JFunction f props) = false ->
    let this := constructor a b in
    let static := get_property (JFunction f props) "schema" in
    let decorated := getMetadata rt K (JFunction f props) in
    (truthy static = true ->
       forall (K' : JsValue) (reflect : JsValue -> JsValue -> JsValue),
         getSchema {| call := call rt; getMetadata := reflect;
                      adopt := adopt rt |} K' this md
         = Return static) /\
    (truthy static = false -> getSchema rt K this md = Return decorated) /\
    (static = JUndefined -> decorated = JUndefined ->
       forall v, transform rt K this v md = Return v).
Proof.
  intros rt K a b md f props HS NS E P this static decorated.
  subst this static decorated.
  assert (G : forall rt' K', getSchema rt' K' (constructor a b) md
                = getSchemaFromType rt' K' (JFunction f props)).
  { intros rt' K'. rewrite (getSchema_type_driven rt' K' a b md HS).
    rewrite NS, E, P. reflexivity. }
  split; [|split].
  - intros T K' reflect. rewrite G, getSchemaFromType_class, T. reflexivity.
  - intros T. rewrite G, getSchemaFromType_class, T. reflexivity.
  - intros S M v. apply (transform_skipped rt K _ JUndefined); [|reflexivity].
    rewrite G, getSchemaFromType_class, S, M. reflexivity.
Qed.

(** ** The exception factory *)

Lemma createException_factory (rt : Runtime) (this : StandardValidationPipe)
  (vs : list JsValue) (f : FunId) (props : list (string * JsValue))
  (r : JsValue) :
  is_nullish (options this) = false ->
  get_property (options this) "exceptionFactory" = JFunction f props ->
  call rt f [JArray vs] = Return r ->
  createException rt this (JArray vs)
  = Return (if instanceof_HttpException r then r else JBadRequestException r).
Proof.
  intros N F C. unfold createException.
  rewrite (member_not_nullish _ "exceptionFactory" N). simpl. rewrite F.
  simpl. rewrite C. simpl. destruct (instanceof_HttpException r); reflexivity.
Qed.

(** C6. With a custom exception factory, a failing validation calls the
    factory with the list of issues; an [HttpException] that the factory
    returns is thrown as it is, anything else is thrown wrapped in a
    [BadRequestException]: in both cases the pipe throws an instance of
    [HttpException]. *)
Theorem factory_result_thrown_or_wrapped :
  forall (rt : Runtime) (K a b v : JsValue) (md : ArgumentMetadata)
         (s result : JsValue) (vs : list JsValue)
         (f : FunId) (props : list (string * JsValue)) (r : JsValue),
    getSchema rt K (constructor a b) md = Return s ->
    truthy s = true ->
    get_property (options (constructor a b)) "exceptionFactory"
      = JFunction f props ->
    validate rt s v = Return result ->
    carries_issues result vs ->
    call rt f [JArray vs] = Return r ->
    exists e : JsValue,
      transform rt K (constructor a b) v md = Throw e /\
      instanceof_HttpException e = true /\
      (instanceof_HttpException r = true -> e = r) /\
      (instanceof_HttpException r = false -> e = JBadRequestException r).
Proof.
  intros rt K a b v md s result vs f props r G T F V C R.
  exists (if instanceof_HttpException r then r else JBadRequestException r).
  split.
  - rewrite (transform_resolved rt K _ s v md G T).
    rewrite (validateWith_failure rt _ s v result vs V C).
    rewrite (createException_factory rt _ vs f props r
               (constructor_options_not_nullish a b) F R).
    reflexivity.
  - destruct (instanceof_HttpException r) eqn:I; repeat split;
      auto; discriminate.
Qed.

(** C7. Without a custom exception factory a failing validation throws an
    [HttpException] whose body is
    [{statusCode, message: "Validation failed", errors}] with one
    [{path, message}] entry per issue, and whose HTTP status is the
    [errorHttpStatusCode] option, or 400 when the option is unset; the
    [statusCode] of the body is that same status. *)
Theorem default_error_body_and_status :
  forall (rt : Runtime) (K a b v : JsValue) (md : ArgumentMetadata)
         (s result : JsValue) (vs : list JsValue) (issues : list Issue),
    getSchema rt K (constructor a b) md = Return s ->
    truthy s = true ->
    truthy (get_property (options (constructor a b)) "exceptionFactory")
      = false ->
    validate rt s v = Return result ->
    carries_issues result vs ->
    traverse issue_of_js vs = Some issues ->
    let configured :=
      get_property (options (constructor a b)) "errorHttpStatusCode" in
    exists (e statusCode : JsValue),
      transform rt K (constructor a b) v md = Throw e /\
      getResponse e
        = Some (JObject [("statusCode", statusCode);
                         ("message", JString "Validation failed");
                         ("errors", JArray (map error_entry issues))]) /\
      getStatus e = Some statusCode /\
      (configured = JUndefined -> statusCode = JNumber 400) /\
      (is_nullish configured = false -> statusCode = configured).
Proof.
  intros rt K a b v md s result vs issues G T F V C D configured.
  exists (JHttpException (default_body (constructor a b) issues)
                         (chosen_status (constructor a b))),
         (chosen_status (constructor a b)).
  split; [|split; [|split; [|split]]].
  - apply (transform_default_error rt K a b v md s result vs issues);
      assumption.
  - reflexivity.
  - reflexivity.
  - intros U. unfold chosen_status. fold configured. rewrite U. reflexivity.
  - intros N. unfold chosen_status, nullish_coalesce. fold configured.
    rewrite N. reflexivity.
Qed.

(** ** Success or failure of an outcome *)

Lemma has_issues_object (result : JsValue) :
  is_object result = true ->
  has_issues result
  = Return (has_property result "issues"
            && truthy (get_property result "issues")).
Proof.
  intros O. unfold has_issues, in_operator. rewrite O. simpl.
  destruct (has_property result "issues"); [|reflexivity].
  rewrite (member_object _ _ O). reflexivity.
Qed.

Lemma validateWith_object (rt : Runtime) (this : StandardValidationPipe)
  (s v result : JsValue) :
  validate rt s v = Return result ->
  is_object result = true ->
  validateWith rt this s v
  = if has_property result "issues" && truthy (get_property result "issues")
    then (exception <- createException rt this (get_property result "issues") ;;
          Throw exception)
    else Return (get_property result "value").
Proof.
  intros V O. unfold validateWith. rewrite V. simpl.
  rewrite (has_issues_object result O). simpl.
  rewrite !(member_object _ _ O).
  destruct (has_property result "issues" && truthy (get_property result "issues"));
    reflexivity.
Qed.

(** C9, as the code has it.  Once a schema is resolved and its validation
    has given an outcome, [transform] throws exactly when the outcome has an
    [issues] field whose value holds as a condition: every array does, the
    empty one too, while [undefined], [null], [false], 0, NaN and the empty
    string do not.  An outcome whose [issues] field is present but
    [undefined] is a success and its [value] field is returned; an outcome
    with an empty array of issues is a failure and throws, and without a
    custom exception factory the error thrown has an empty [errors] array. *)
Theorem transform_throws_iff_issues_hold :
  forall (rt : Runtime) (K a b v : JsValue) (md : ArgumentMetadata)
         (s result : JsValue),
    getSchema rt K (constructor a b) md = Return s ->
    truthy s = true ->
    validate rt s v = Return result ->
    is_object result = true ->
    let this := constructor a b in
    ((exists e, transform rt K this v md = Throw e) <->
     (has_property result "issues" = true /\
      truthy (get_property result "issues") = true)) /\
    (has_property result "issues" = true ->
     get_property result "issues" = JUndefined ->
     transform rt K this v md = Return (get_property result "value")) /\
    (carries_issues result [] ->
     (exists e, transform rt K this v md = Throw e) /\
     (truthy (get_property (options this) "exceptionFactory") = false ->
      exists e response,
        transform rt K this v md = Throw e /\
        getResponse e = Some response /\
        get_property response "errors" = JArray [])).
Proof.
  intros rt K a b v md s result G T V O this. subst this.
  rewrite (transform_resolved rt K _ s v md G T).
  pose proof (validateWith_object rt (constructor a b) s v result V O) as W.
  split; [|split].
  - rewrite W. split.
    + intros [e H]. apply andb_true_iff.
      destruct (has_property result "issues"
                && truthy (get_property result "issues"));
        [reflexivity | discriminate].
    + intros H. apply andb_true_iff in H. rewrite H.
      destruct (createException rt (constructor a b)
                  (get_property result "issues")) as [x | x];
        simpl; eauto.
  - intros P U. rewrite W, U, andb_false_r. reflexivity.
  - intros C. split.
    + rewrite (validateWith_failure rt _ s v result [] V C).
      destruct (createException rt (constructor a b) (JArray [])) as [x | x];
        simpl; eauto.
    + intros F.
      exists (JHttpException (default_body (constructor a b) [])
                             (chosen_status (constructor a b))),
             (default_body (constructor a b) []).
      rewrite (validateWith_failure rt _ s v result [] V C).
      rewrite (createException_default rt _ [] []
                 (constructor_options_not_nullish a b) F eq_refl).
      repeat split.
Qed.

(** ** Which argument is the schema *)

(** C10. The first argument of the constructor is the bound schema exactly
    when [typeof] calls it an object, it is not [null], it has a
    [~standard] property and [typeof] calls that property an object.
    Otherwise the pipe is type-driven, the first argument is the options
    record when it is there, and the second argument plays no part.  Options
    that are not supplied are the empty record. *)
Theorem constructor_tells_schema_from_options :
  forall a b : JsValue,
    (isSchema a = true <->
     (typeof a = "object" /\ a <> JNull /\
      has_property a "~standard" = true /\
      typeof (get_property a "~standard") = "object")) /\
    (isSchema a = true ->
     schema (constructor a b) = a /\
     options (constructor a b) = nullish_coalesce b (JObject []) /\
     (is_nullish b = true -> options (constructor a b) = JObject [])) /\
    (isSchema a = false ->
     schema (constructor a b) = JUndefined /\
     (forall b', constructor a b' = constructor a b) /\
     (is_nullish a = false -> options (constructor a b) = a) /\
     (is_nullish a = true -> options (constructor a b) = JObject [])).
Proof.
  intros a b. split; [|split].
  - unfold isSchema. rewrite !andb_true_iff, !String.eqb_eq, negb_true_iff.
    split.
    + intros [[[T N] P] S]. repeat split; auto.
      intros ->. discriminate.
    + intros (T & N & P & S). repeat split; auto.
      destruct a; try reflexivity. contradiction.
  - intros H. rewrite (constructor_bound a b H). simpl. repeat split.
    intros N. unfold nullish_coalesce. rewrite N. reflexivity.
  - intros H. rewrite (constructor_type_driven a b H). simpl. repeat split.
    + intros b'. rewrite (constructor_type_driven a b' H). reflexivity.
    + intros N. unfold nullish_coalesce. rewrite N. reflexivity.
    + intros N. unfold nullish_coalesce. rewrite N. reflexivity.
Qed.

(** ** The properties at work on the sample host *)

(** A typeof-object [~standard] is all that [isSchema] asks for: [null]
    passes, and a schema that is a function does not. *)
Remark isSchema_of_null_standard :
  isSchema (JObject [("~standard", JNull)]) = true /\
  isSchema (JFunction (UserFunction 1)
              [("~standard", JObject [("validate", JFunction (UserFunction 1) [])])])
  = false.
Proof. split; reflexivity. Qed.

Lemma transform_returns_success_value_witness :
  (isSchema (sample_schema 1) = true /\
   validate sample_runtime (sample_schema 1) (JNumber 5)
     = Return (JObject [("value", JNumber 5)]) /\
   is_success (JObject [("value", JNumber 5)]) = true /\
   transform sample_runtime sample_key
             (constructor (sample_schema 1) JUndefined)
             (JNumber 5) (body_argument plain_class)
     = Return (JNumber 5)) /\
  (call edge_runtime (UserFunction 14) [JNull]
     = Return (JPromise true (JObject [("value", JString "ok")])) /\
   transform edge_runtime sample_key
             (constructor (sample_schema 14) JUndefined)
             JNull (body_argument plain_class)
     = Return (JString "ok")) /\
  (call thenable_runtime (UserFunction 22) [JNull]
     = Return (thenable 31 [("issues", JArray [sample_issue])]) /\
   validate thenable_runtime (sample_schema 22) JNull
     = Return (JObject [("value", JNumber 2)]) /\
   transform thenable_runtime sample_key
             (constructor (sample_schema 22) JUndefined)
             JNull (body_argument plain_class)
     = Return (JNumber 2)).
Proof.
  split; [|split].
  - split; [reflexivity|]. split; [reflexivity|]. split; [reflexivity|].
    exact (transform_returns_success_value sample_runtime sample_key
             (sample_schema 1) JUndefined (JNumber 5)
             (body_argument plain_class)
             (JObject [("value", JNumber 5)]) eq_refl eq_refl eq_refl).
  - split; [reflexivity|].
    exact (transform_returns_success_value edge_runtime sample_key
             (sample_schema 14) JUndefined JNull (body_argument plain_class)
             (JObject [("value", JString "ok")]) eq_refl eq_refl eq_refl).
  - split; [reflexivity|]. split; [reflexivity|].
    exact (transform_returns_success_value thenable_runtime sample_key
             (sample_schema 22) JUndefined JNull (body_argument plain_class)
             (JObject [("value", JNumber 2)]) eq_refl eq_refl eq_refl).
Defined.

Lemma transform_errors_follow_issues_witness :
  isSchema (sample_schema 1) = true /\
  validate sample_runtime (sample_schema 1) (JString "x")
    = Return (JObject [("issues", JArray [sample_issue])]) /\
  traverse issue_of_js [sample_issue] = Some [typed_sample_issue] /\
  exists (e response : JsValue) (errors : list JsValue),
    transform sample_runtime sample_key
              (constructor (sample_schema 1) JUndefined)
              (JString "x") (body_argument plain_class) = Throw e /\
    getResponse e = Some response /\
    get_property response "errors" = JArray errors /\
    length errors = 1 /\
    forall (n : nat) (issue : Issue),
      nth_error [typed_sample_issue] n = Some issue ->
      exists entry : JsValue,
        nth_error errors n = Some entry /\
        get_property entry "path"
          = JArray (map js_of_key (flattened_path issue)).
Proof.
  split; [reflexivity|]. split; [reflexivity|]. split; [reflexivity|].
  apply (transform_errors_follow_issues sample_runtime sample_key
           (sample_schema 1) JUndefined (JString "x")
           (body_argument plain_class)
           (JObject [("issues", JArray [sample_issue])])
           [sample_issue] [typed_sample_issue]);
    try reflexivity.
  split; reflexivity.
Defined.

Lemma explicit_schema_always_used_witness :
  isSchema (sample_schema 1) = true /\
  getSchema sample_runtime sample_key
            (constructor (sample_schema 1)
               (with_option "expectedType" decorated_class))
            (custom_argument dto_class)
    = Return (sample_schema 1).
Proof.
  split; [reflexivity|].
  exact (proj1 (explicit_schema_always_used sample_runtime sample_key
                  (sample_schema 1)
                  (with_option "expectedType" decorated_class)
                  JNull (custom_argument dto_class) eq_refl)).
Defined.

Lemma custom_kind_needs_opt_in_witness :
  isSchema JUndefined = false /\
  type (custom_argument dto_class) = Custom /\
  transform sample_runtime sample_key (constructor JUndefined JUndefined)
            (JString "x") (custom_argument dto_class)
    = Return (JString "x") /\
  getSchema sample_runtime sample_key
            (constructor (with_option "validateCustomDecorators" (JBoolean true))
                         JUndefined)
            (custom_argument dto_class)
    = Return (sample_schema 1).
Proof.
  split; [reflexivity|]. split; [reflexivity|]. split.
  - exact (proj1 (custom_kind_needs_opt_in sample_runtime sample_key
                    JUndefined JUndefined (JString "x")
                    (custom_argument dto_class) eq_refl eq_refl)
             (or_introl eq_refl)).
  - exact (proj1 (proj2 (custom_kind_needs_opt_in sample_runtime sample_key
                    (with_option "validateCustomDecorators" (JBoolean true))
                    JUndefined (JString "x")
                    (custom_argument dto_class) eq_refl eq_refl)
                  eq_refl)).
Defined.

Lemma transform_passes_through_without_schema_witness :
  isSchema JUndefined = false /\
  unresolvable sample_runtime sample_key
    (expected_type (constructor JUndefined JUndefined)
                   (body_argument plain_class)) /\
  transform sample_runtime sample_key (constructor JUndefined JUndefined)
            (JString "x") (body_argument plain_class)
    = Return (JString "x").
Proof.
  assert (U : unresolvable sample_runtime sample_key
                (expected_type (constructor JUndefined JUndefined)
                               (body_argument plain_class))).
  { right. right. exists (UserFunction 8), []. repeat split. }
  split; [reflexivity|]. split; [exact U|].
  exact (transform_passes_through_without_schema sample_runtime sample_key
           JUndefined JUndefined (JString "x") (body_argument plain_class)
           eq_refl U).
Defined.

Lemma factory_result_thrown_or_wrapped_witness :
  get_property
    (options (constructor (sample_schema 1)
                (with_option "exceptionFactory" (JFunction (UserFunction 4) []))))
    "exceptionFactory" = JFunction (UserFunction 4) [] /\
  call sample_runtime (UserFunction 4) [JArray [sample_issue]]
    = Return (JObject [("code", JString "X");
                       ("details", JArray [sample_issue])]) /\
  transform sample_runtime sample_key
    (constructor (sample_schema 1)
       (with_option "exceptionFactory" (JFunction (UserFunction 4) [])))
    (JString "x") (body_argument plain_class)
  = Throw (JBadRequestException
             (JObject [("code", JString "X");
                       ("details", JArray [sample_issue])])).
Proof.
  split; [reflexivity|]. split; [reflexivity|].
  destruct (factory_result_thrown_or_wrapped sample_runtime sample_key
              (sample_schema 1)
              (with_option "exceptionFactory" (JFunction (UserFunction 4) []))
              (JString "x") (body_argument plain_class) (sample_schema 1)
              (JObject [("issues", JArray [sample_issue])]) [sample_issue]
              (UserFunction 4) []
              (JObject [("code", JString "X");
                        ("details", JArray [sample_issue])])
              eq_refl eq_refl eq_refl eq_refl (conj eq_refl eq_refl) eq_refl)
    as (e & H & _ & _ & W).
  rewrite <- (W eq_refl). exact H.
Defined.

Lemma default_error_body_and_status_witness :
  (truthy (get_property
             (options (constructor (sample_schema 1)
                         (with_option "errorHttpStatusCode" (JNumber 422))))
             "exceptionFactory") = false /\
   exists e : JsValue,
     transform sample_runtime sample_key
       (constructor (sample_schema 1)
          (with_option "errorHttpStatusCode" (JNumber 422)))
       (JString "x") (body_argument plain_class) = Throw e /\
     getResponse e
       = Some (JObject [("statusCode", JNumber 422);
                        ("message", JString "Validation failed");
                        ("errors", JArray [error_entry typed_sample_issue])]) /\
     getStatus e = Some (JNumber 422)) /\
  (validate thenable_runtime (sample_schema 23) JNull
     = Return (JObject [("issues", JArray [sample_issue])]) /\
   exists e : JsValue,
     transform thenable_runtime sample_key
       (constructor (sample_schema 23) JUndefined)
       JNull (body_argument plain_class) = Throw e /\
     getStatus e = Some (JNumber 400)).
Proof.
  split.
  - split; [reflexivity|].
    destruct (default_error_body_and_status sample_runtime sample_key
                (sample_schema 1)
                (with_option "errorHttpStatusCode" (JNumber 422))
                (JString "x") (body_argument plain_class) (sample_schema 1)
                (JObject [("issues", JArray [sample_issue])]) [sample_issue]
                [typed_sample_issue]
                eq_refl eq_refl eq_refl eq_refl (conj eq_refl eq_refl) eq_refl)
      as (e & statusCode & H & R & S & _ & N).
    rewrite (N eq_refl) in R, S. exists e. auto.
  - split; [reflexivity|].
    destruct (default_error_body_and_status thenable_runtime sample_key
                (sample_schema 23) JUndefined JNull
                (body_argument plain_class) (sample_schema 23)
                (JObject [("issues", JArray [sample_issue])]) [sample_issue]
                [typed_sample_issue]
                eq_refl eq_refl eq_refl eq_refl (conj eq_refl eq_refl) eq_refl)
      as (e & statusCode & H & _ & S & U & _).
    rewrite (U eq_refl) in S. exists e. auto.
Defined.

Lemma static_schema_before_metadata_witness :
  getSchema sample_runtime sample_key (constructor JUndefined JUndefined)
            (body_argument decorated_class)
    = Return (sample_schema 1) /\
  getSchema sample_runtime sample_key (constructor JUndefined JUndefined)
            (body_argument dto_class)
    = Return (sample_schema 1) /\
  transform sample_runtime sample_key (constructor JUndefined JUndefined)
            (JString "x") (body_argument plain_class)
    = Return (JString "x").
Proof.
  split; [|split].
  - exact (proj1 (proj2 (static_schema_before_metadata sample_runtime
             sample_key JUndefined JUndefined (body_argument decorated_class)
             (UserFunction 7) [] eq_refl eq_refl eq_refl eq_refl)) eq_refl).
  - exact (proj1 (static_schema_before_metadata sample_runtime
             sample_key JUndefined JUndefined (body_argument dto_class)
             (UserFunction 9) [("schema", sample_schema 1)]
             eq_refl eq_refl eq_refl eq_refl) eq_refl
             sample_key (getMetadata sample_runtime)).
  - exact (proj2 (proj2 (static_schema_before_metadata sample_runtime
             sample_key JUndefined JUndefined (body_argument plain_class)
             (UserFunction 8) [] eq_refl eq_refl eq_refl eq_refl))
             eq_refl eq_refl (JString "x")).
Defined.

Lemma transform_throws_iff_issues_hold_witness :
  validate sample_runtime (sample_schema 2) JNull
    = Return (JObject [("issues", JArray [])]) /\
  exists e response,
    transform sample_runtime sample_key
              (constructor (sample_schema 2) JUndefined) JNull
              (body_argument plain_class) = Throw e /\
    getResponse e = Some response /\
    get_property response "errors" = JArray [].
Proof.
  split; [reflexivity|].
  exact (proj2 (proj2 (proj2 (transform_throws_iff_issues_hold sample_runtime
           sample_key (sample_schema 2) JUndefined JNull
           (body_argument plain_class) (sample_schema 2)
           (JObject [("issues", JArray [])])
           eq_refl eq_refl eq_refl eq_refl))
           (conj eq_refl eq_refl)) eq_refl).
Defined.

(** C9, as the spec words it, fails twice.  An [issues] field that is
    defined and not [null], yet does not hold as a condition (here the
    number 0), lets the value through: throwing is not equivalent to a
    defined, non-null [issues].  And with an exception factory (here one
    that returns an [HttpException] of its own) an empty list of issues
    throws the factory's exception, which has no [errors] array. *)
Lemma issues_defined_non_null_counterexample :
  let zero := JObject [("issues", JNumber 0); ("value", JNumber 7)] in
  let bound := constructor (sample_schema 3) JUndefined in
  let empty := JObject [("issues", JArray [])] in
  let custom :=
    constructor (sample_schema 2)
      (with_option "exceptionFactory" (JFunction (UserFunction 5) [])) in
  (validate sample_runtime (sample_schema 3) JNull = Return zero /\
   transform sample_runtime sample_key bound JNull (body_argument plain_class)
     = Return (JNumber 7) /\
   ~ ((exists e, transform sample_runtime sample_key bound JNull
                   (body_argument plain_class) = Throw e) <->
      (has_property zero "issues" = true /\
       get_property zero "issues" <> JUndefined /\
       get_property zero "issues" <> JNull))) /\
  (validate sample_runtime (sample_schema 2) JNull = Return empty /\
   transform sample_runtime sample_key custom JNull (body_argument plain_class)
     = Throw (JHttpException (JString "Invalid") (JNumber 422)) /\
   ~ (exists e response,
        transform sample_runtime sample_key custom JNull
          (body_argument plain_class) = Throw e /\
        getResponse e = Some response /\
        get_property response "errors" = JArray [])).
Proof.
  cbv zeta. split; (split; [reflexivity | split; [reflexivity|]]).
  - intros [_ H]. destruct H as [e E].
    + split; [reflexivity | split; discriminate].
    + discriminate E.
  - intros (e & response & H & R & E).
    injection H as <-. injection R as <-. discriminate.
Qed.

(** * Further properties of the pipe *)

(** ** What [transform] makes of the validator *)

Lemma validate_calls_validator (rt : Runtime) (s v : JsValue) (f : FunId)
  (ps : list (string * JsValue)) :
  validator_of s = JFunction f ps ->
  validate rt s v = (returned <- call rt f [v] ;; await_resolve rt returned).
Proof.
  intros H. unfold validate, member, validator_of in *.
  destruct (is_nullish s) eqn:N.
  { destruct s; try discriminate N; discriminate H. }
  simpl. destruct (is_nullish (get_property s "~standard")) eqn:N2.
  { destruct (get_property s "~standard"); try discriminate N2;
      discriminate H. }
  simpl. rewrite H. reflexivity.
Qed.

Lemma createException_options (rt : Runtime) (t1 t2 : StandardValidationPipe)
  (issues : JsValue) :
  options t1 = options t2 ->
  createException rt t1 issues = createException rt t2 issues.
Proof. intros O. unfold createException. rewrite O. reflexivity. Qed.

Lemma validateWith_ext (rt : Runtime) (t1 t2 : StandardValidationPipe)
  (s1 s2 v1 v2 : JsValue) :
  (forall issues, createException rt t1 issues = createException rt t2 issues) ->
  validate rt s1 v1 = validate rt s2 v2 ->
  validateWith rt t1 s1 v1 = validateWith rt t2 s2 v2.
Proof.
  intros C V. unfold validateWith. rewrite V.
  destruct (validate rt s2 v2) as [result|]; [simpl|reflexivity].
  destruct (has_issues result) as [[|]|]; simpl; try reflexivity.
  destruct (member result "issues") as [issues|]; [simpl|reflexivity].
  rewrite C. reflexivity.
Qed.

(** X1. What the validator throws, at once or through a rejected promise,
    is what [transform] throws: it is neither wrapped in an [HttpException]
    nor handed to the exception factory. *)
Theorem validator_failure_propagates :
  forall (rt : Runtime) (K : JsValue) (this : StandardValidationPipe)
         (s v : JsValue) (md : ArgumentMetadata)
         (f : FunId) (ps : list (string * JsValue)) (e : JsValue),
    getSchema rt K this md = Return s ->
    truthy s = true ->
    validator_of s = JFunction f ps ->
    call rt f [v] = Throw e \/ call rt f [v] = Return (JPromise false e) ->
    transform rt K this v md = Throw e.
Proof.
  intros rt K this s v md f ps e G T F H.
  rewrite (transform_resolved rt K this s v md G T).
  unfold validateWith. rewrite (validate_calls_validator rt s v f ps F).
  destruct H as [-> | ->]; reflexivity.
Qed.

(** X2. A validator that answers at once and one that answers through a
    promise are the same to the pipe: bound with the same options, two
    schemas whose validators give the same outcome, one directly and one in
    a fulfilled promise, make [transform] behave alike.  The outcome is not
    itself a promise or a thenable, which the direct answer would have
    adopted. *)
Theorem sync_and_async_validators_agree :
  forall (rt : Runtime) (K s1 s2 o v : JsValue) (md : ArgumentMetadata)
         (f1 f2 : FunId) (ps1 ps2 : list (string * JsValue)) (r : JsValue),
    isSchema s1 = true ->
    isSchema s2 = true ->
    validator_of s1 = JFunction f1 ps1 ->
    validator_of s2 = JFunction f2 ps2 ->
    is_promise r = false ->
    has_callable_then r = false ->
    call rt f1 [v] = Return r ->
    call rt f2 [v] = Return (JPromise true r) ->
    transform rt K (constructor s1 o) v md
    = transform rt K (constructor s2 o) v md.
Proof.
  intros rt K s1 s2 o v md f1 f2 ps1 ps2 r H1 H2 F1 F2 P N C1 C2.
  rewrite (transform_resolved rt K _ s1 v md (getSchema_bound rt K s1 o md H1)
             (isSchema_truthy s1 H1)).
  rewrite (transform_resolved rt K _ s2 v md (getSchema_bound rt K s2 o md H2)
             (isSchema_truthy s2 H2)).
  apply validateWith_ext.
  - intros issues. apply createException_options.
    rewrite (constructor_bound s1 o H1), (constructor_bound s2 o H2).
    reflexivity.
  - rewrite (validate_calls_validator rt s1 v f1 ps1 F1).
    rewrite (validate_calls_validator rt s2 v f2 ps2 F2).
    rewrite C1, C2. simpl. unfold await_resolve. rewrite N.
    destruct r; try reflexivity. discriminate P.
Qed.

(** X3. An outcome that is not an object (a validator that returns nothing,
    say) makes [transform] throw a TypeError, from the [in] test, whatever
    the options: no [HttpException] is built. *)
Theorem non_object_outcome_is_a_TypeError :
  forall (rt : Runtime) (K : JsValue) (this : StandardValidationPipe)
         (s v : JsValue) (md : ArgumentMetadata) (result : JsValue),
    getSchema rt K this md = Return s ->
    truthy s = true ->
    validate rt s v = Return result ->
    is_object result = false ->
    transform rt K this v md = Throw JTypeError.
Proof.
  intros rt K this s v md result G T V O.
  rewrite (transform_resolved rt K this s v md G T).
  unfold validateWith, has_issues, in_operator. rewrite V. simpl.
  rewrite O. reflexivity.
Qed.

(** X4. [isSchema] does not look for a callable [validate].  A first
    argument that passes it with a [~standard] that is [null], or that has
    no function as [validate], is bound all the same, and then every
    [transform] throws a TypeError. *)
Theorem schema_without_validator_always_throws :
  forall (rt : Runtime) (K s o v : JsValue) (md : ArgumentMetadata),
    isSchema s = true ->
    is_function (validator_of s) = false ->
    schema (constructor s o) = s /\
    transform rt K (constructor s o) v md = Throw JTypeError.
Proof.
  intros rt K s o v md HS F. split.
  - rewrite (constructor_bound s o HS). reflexivity.
  - rewrite (transform_resolved rt K _ s v md (getSchema_bound rt K s o md HS)
               (isSchema_truthy s HS)).
    unfold validateWith, validate, validator_of in *.
    rewrite (member_not_nullish s "~standard").
    + simpl. unfold member.
      destruct (is_nullish (get_property s "~standard")); [reflexivity|].
      simpl. destruct (get_property (get_property s "~standard") "validate");
        try reflexivity. discriminate F.
    + destruct s; try discriminate HS; reflexivity.
Qed.

(** X5. A schema that is a function object (a callable schema) is never
    bound: the constructor takes it for the options, and a call with no
    declared type, as in [transform(value, {type: 'body'})], returns the
    value unvalidated. *)
Theorem callable_schema_is_not_bound :
  forall (rt : Runtime) (K b v : JsValue) (md : ArgumentMetadata)
         (f : FunId) (props : list (string * JsValue)),
    is_nullish (get_property (JFunction f props) "expectedType") = true ->
    truthy (metatype md) = false ->
    schema (constructor (JFunction f props) b) = JUndefined /\
    options (constructor (JFunction f props) b) = JFunction f props /\
    transform rt K (constructor (JFunction f props) b) v md = Return v.
Proof.
  intros rt K b v md f props E M.
  assert (HS : isSchema (JFunction f props) = false) by reflexivity.
  split; [|split].
  - rewrite (constructor_type_driven _ b HS). reflexivity.
  - rewrite (constructor_type_driven _ b HS). reflexivity.
  - apply (transform_skipped rt K _ JUndefined); [|reflexivity].
    rewrite (getSchema_type_driven rt K _ b md HS).
    destruct (custom_skipped _ md); [reflexivity|].
    unfold expected_type. rewrite (constructor_type_driven _ b HS).
    cbn [options]. change (nullish_coalesce (JFunction f props) (JObject []))
      with (JFunction f props).
    unfold nullish_coalesce at 1 2. rewrite E, M. reflexivity.
Qed.

(** ** What [getSchema] reads of its arguments *)

Lemma getSchema_reads (rt : Runtime) (K : JsValue)
  (this : StandardValidationPipe) (md md' : ArgumentMetadata) :
  is_custom (type md) = is_custom (type md') ->
  (forall configured,
      nullish_coalesce configured (metatype md)
      = nullish_coalesce configured (metatype md') \/
      get_property (options this) "expectedType" <> configured) ->
  getSchema rt K this md = getSchema rt K this md'.
Proof.
  intros C M. unfold getSchema. rewrite C.
  destruct (truthy (schema this)); [reflexivity|].
  destruct (if is_custom (type md') then _ else _) as [[|]|];
    simpl; try reflexivity.
  unfold member. destruct (is_nullish (options this)); [reflexivity|].
  simpl.
  destruct (M (get_property (options this) "expectedType")) as [-> | N];
    [reflexivity | contradiction].
Qed.

Lemma transform_of_getSchema (rt : Runtime) (K : JsValue)
  (this : StandardValidationPipe) (v : JsValue) (md md' : ArgumentMetadata) :
  getSchema rt K this md = getSchema rt K this md' ->
  transform rt K this v md = transform rt K this v md'.
Proof. intros G. unfold transform. rewrite G. reflexivity. Qed.

(** X6. An [expectedType] option that is set wins over the declared type:
    the [metatype] of the argument descriptor then has no bearing on the
    result. *)
Theorem expected_type_overrides_metatype :
  forall (rt : Runtime) (K : JsValue) (this : StandardValidationPipe)
         (v : JsValue) (md md' : ArgumentMetadata),
    is_nullish (get_property (options this) "expectedType") = false ->
    type md = type md' ->
    transform rt K this v md = transform rt K this v md'.
Proof.
  intros rt K this v md md' N T. apply transform_of_getSchema.
  apply getSchema_reads; [rewrite T; reflexivity|].
  intros configured.
  destruct (is_nullish configured) eqn:E.
  - right. intros <-. rewrite E in N. discriminate.
  - left. unfold nullish_coalesce. rewrite E. reflexivity.
Qed.

(** X7. Of the argument descriptor the pipe reads whether the kind is
    "custom", and the [metatype]: body, query and param arguments are
    treated alike, and [data] is never looked at. *)
Theorem kind_and_data_play_no_part :
  forall (rt : Runtime) (K : JsValue) (this : StandardValidationPipe)
         (v : JsValue) (md md' : ArgumentMetadata),
    is_custom (type md) = is_custom (type md') ->
    metatype md = metatype md' ->
    transform rt K this v md = transform rt K this v md'.
Proof.
  intros rt K this v md md' C M. apply transform_of_getSchema.
  apply getSchema_reads; [assumption|].
  intros configured. left. rewrite M. reflexivity.
Qed.

(** X8. Schema resolution does not throw on a class: for a pipe made by the
    constructor, when the type to resolve is absent (or any value that does
    not hold as a condition) or is an object or a function, [getSchema]
    returns, with a schema or with [undefined]. *)
Theorem getSchema_returns_for_classes :
  forall (rt : Runtime) (K a b : JsValue) (md : ArgumentMetadata),
    truthy (expected_type (constructor a b) md) = false \/
    is_object (expected_type (constructor a b) md) = true ->
    exists s, getSchema rt K (constructor a b) md = Return s.
Proof.
  intros rt K a b md H.
  destruct (isSchema a) eqn:HS.
  - exists a. apply getSchema_bound. assumption.
  - rewrite (getSchema_type_driven rt K a b md HS).
    destruct (custom_skipped (constructor a b) md); [eauto|].
    destruct (negb (truthy (expected_type (constructor a b) md))
              || isPrimitive (expected_type (constructor a b) md)) eqn:E;
      [eauto|].
    apply orb_false_iff in E. destruct E as [E _].
    apply negb_false_iff in E.
    destruct H as [H | H]; [rewrite H in E; discriminate|].
    unfold getSchemaFromType, Reflect_getMetadata.
    rewrite (member_object _ "schema" H). simpl. rewrite H.
    destruct (truthy (get_property _ "schema")); eauto.
Qed.

(** X9. A type-driven pipe that resolves a schema acts as the pipe bound to
    that schema with the same options: a global pipe on an argument whose
    class carries the schema and a route-level pipe built with the schema
    give the same result. *)
Theorem type_driven_pipe_acts_as_bound :
  forall (rt : Runtime) (K a b s v : JsValue) (md md' : ArgumentMetadata),
    isSchema a = false ->
    getSchema rt K (constructor a b) md = Return s ->
    isSchema s = true ->
    transform rt K (constructor a b) v md
    = transform rt K (constructor s a) v md'.
Proof.
  intros rt K a b s v md md' HA G HS.
  rewrite (transform_resolved rt K _ s v md G (isSchema_truthy s HS)).
  rewrite (transform_resolved rt K _ s v md' (getSchema_bound rt K s a md' HS)
             (isSchema_truthy s HS)).
  apply validateWith_ext; [|reflexivity].
  intros issues. apply createException_options.
  rewrite (constructor_type_driven a b HA), (constructor_bound s a HS).
  reflexivity.
Qed.

(** X10. Whichever way the schema was found, bound or resolved from the
    type, a success outcome gives back the value it carries. *)
Theorem resolved_pipe_returns_validated_value :
  forall (rt : Runtime) (K : JsValue) (this : StandardValidationPipe)
         (s v : JsValue) (md : ArgumentMetadata) (result : JsValue),
    getSchema rt K this md = Return s ->
    truthy s = true ->
    validate rt s v = Return result ->
    is_success result = true ->
    transform rt K this v md = Return (get_property result "value").
Proof.
  intros rt K this s v md result G T V R.
  rewrite (transform_resolved rt K this s v md G T).
  unfold validateWith. rewrite V. simpl.
  rewrite (has_issues_success result R). simpl.
  apply member_object. apply andb_prop in R. tauto.
Qed.

(** ** Paths *)

Lemma normalizeSegment_null_or_returns (v : JsValue) :
  (v = JNull /\ normalizeSegment v = Throw JTypeError) \/
  (v <> JNull /\ exists r, normalizeSegment v = Return r).
Proof.
  destruct v; try (right; split; [discriminate | eexists; reflexivity]).
  - left. split; reflexivity.
  - right. split; [discriminate|].
    unfold normalizeSegment, in_operator, member. simpl.
    destruct (has_property (JObject props) "key"); eexists; reflexivity.
Qed.

Lemma segments_of_keys (ks : list PropertyKey) :
  traverse segment_of_js (map js_of_key ks) = Some (map RawKey ks).
Proof.
  induction ks as [|k ks IH]; simpl; [reflexivity|].
  rewrite IH. destruct k; reflexivity.
Qed.

Lemma flatten_raw_keys (ks : list PropertyKey) :
  map flatten_segment (map RawKey ks) = ks.
Proof.
  induction ks as [|k ks IH]; simpl; [reflexivity|].
  rewrite IH. reflexivity.
Qed.

(** X11. On a path of the declared type [normalizePath] gives as many
    segments as it was given, each of them a plain property key, and
    normalising that result again changes nothing. *)
Theorem normalizePath_is_idempotent :
  forall (segments : list JsValue) (p : list Segment),
    traverse segment_of_js segments = Some p ->
    exists keys : list JsValue,
      normalizePath (JArray segments) = Return (JArray keys) /\
      length keys = length segments /\
      Forall (fun k => key_of_js k <> None) keys /\
      normalizePath (JArray keys) = Return (JArray keys).
Proof.
  intros segments p H.
  exists (map js_of_key (map flatten_segment p)).
  split; [|split; [|split]].
  - rewrite normalizePath_segments, (mapM_segments segments p H). reflexivity.
  - rewrite !length_map. apply (traverse_length segment_of_js). assumption.
  - apply Forall_forall. intros k I. apply in_map_iff in I.
    destruct I as (x & <- & _). destruct x; discriminate.
  - rewrite normalizePath_segments.
    rewrite (mapM_segments _ _ (segments_of_keys (map flatten_segment p))).
    rewrite flatten_raw_keys. reflexivity.
Qed.

(** X12. On an array [normalizePath] fails in one case only: a [null]
    segment, which [typeof] calls an object and on which the [in] test
    throws a TypeError.  Without one it returns an array of the same
    length. *)
Theorem normalizePath_throws_on_null_segment_only :
  forall segments : list JsValue,
    (In JNull segments ->
     normalizePath (JArray segments) = Throw JTypeError) /\
    (~ In JNull segments ->
     exists keys : list JsValue,
       normalizePath (JArray segments) = Return (JArray keys) /\
       length keys = length segments).
Proof.
  intros segments. rewrite normalizePath_segments.
  induction segments as [|v l [IHt IHr]]; simpl.
  - split; [contradiction|]. intros _. exists []. split; reflexivity.
  - destruct (normalizeSegment_null_or_returns v) as [[-> E] | [N [r E]]];
      rewrite E; simpl.
    + split; [reflexivity|]. intros H. exfalso. apply H. left. reflexivity.
    + split.
      * intros [H | H]; [congruence|].
        specialize (IHt H).
        destruct (mapM normalizeSegment l); [discriminate IHt|].
        simpl in *. exact IHt.
      * intros H.
        destruct IHr as (keys & K & L); [intros I; apply H; right; exact I|].
        destruct (mapM normalizeSegment l) as [bs|]; [|discriminate K].
        simpl in K. injection K as <-.
        exists (r :: bs). simpl. rewrite L. split; reflexivity.
Qed.

(** ** The factory and the status option *)



(** ** The further properties on the sample hosts *)

Lemma validator_failure_propagates_witness :
  validator_of (sample_schema 11) = JFunction (UserFunction 11) [] /\
  call edge_runtime (UserFunction 11) [JNumber 1] = Throw (JString "boom") /\
  call edge_runtime (UserFunction 12) [JNumber 1]
    = Return (JPromise false (JString "boom")) /\
  transform edge_runtime sample_key
            (constructor (sample_schema 11)
               (with_option "exceptionFactory" (JFunction (UserFunction 16) [])))
            (JNumber 1) (body_argument plain_class)
    = Throw (JString "boom") /\
  transform edge_runtime sample_key (constructor (sample_schema 12) JUndefined)
            (JNumber 1) (body_argument plain_class)
    = Throw (JString "boom").
Proof.
  split; [reflexivity|]. split; [reflexivity|]. split; [reflexivity|]. split.
  - exact (validator_failure_propagates edge_runtime sample_key
             (constructor (sample_schema 11)
                (with_option "exceptionFactory"
                   (JFunction (UserFunction 16) [])))
             (sample_schema 11) (JNumber 1) (body_argument plain_class)
             (UserFunction 11) [] (JString "boom")
             eq_refl eq_refl eq_refl (or_introl eq_refl)).
  - exact (validator_failure_propagates edge_runtime sample_key
             (constructor (sample_schema 12) JUndefined)
             (sample_schema 12) (JNumber 1) (body_argument plain_class)
             (UserFunction 12) [] (JString "boom")
             eq_refl eq_refl eq_refl (or_intror eq_refl)).
Defined.

Lemma sync_and_async_validators_agree_witness :
  isSchema (sample_schema 13) = true /\
  isSchema (sample_schema 14) = true /\
  has_callable_then (JObject [("value", JString "ok")]) = false /\
  call edge_runtime (UserFunction 13) [JNull]
    = Return (JObject [("value", JString "ok")]) /\
  call edge_runtime (UserFunction 14) [JNull]
    = Return (JPromise true (JObject [("value", JString "ok")])) /\
  transform edge_runtime sample_key (constructor (sample_schema 13) JUndefined)
            JNull (body_argument plain_class)
  = transform edge_runtime sample_key (constructor (sample_schema 14) JUndefined)
              JNull (body_argument plain_class).
Proof.
  split; [reflexivity|]. split; [reflexivity|]. split; [reflexivity|].
  split; [reflexivity|]. split; [reflexivity|].
  exact (sync_and_async_validators_agree edge_runtime sample_key
           (sample_schema 13) (sample_schema 14) JUndefined JNull
           (body_argument plain_class) (UserFunction 13) (UserFunction 14)
           [] [] (JObject [("value", JString "ok")])
           eq_refl eq_refl eq_refl eq_refl eq_refl eq_refl eq_refl eq_refl).
Defined.

Lemma non_object_outcome_is_a_TypeError_witness :
  validate edge_runtime (sample_schema 20) (JString "x") = Return JUndefined /\
  is_object JUndefined = false /\
  transform edge_runtime sample_key (constructor (sample_schema 20) JUndefined)
            (JString "x") (body_argument plain_class)
    = Throw JTypeError.
Proof.
  split; [reflexivity|]. split; [reflexivity|].
  exact (non_object_outcome_is_a_TypeError edge_runtime sample_key
           (constructor (sample_schema 20) JUndefined)
           (sample_schema 20) (JString "x") (body_argument plain_class)
           JUndefined eq_refl eq_refl eq_refl eq_refl).
Defined.

Lemma schema_without_validator_always_throws_witness :
  isSchema (JObject [("~standard", JNull)]) = true /\
  is_function (validator_of (JObject [("~standard", JNull)])) = false /\
  transform sample_runtime sample_key
            (constructor (JObject [("~standard", JNull)]) JUndefined)
            (JNumber 5) (body_argument plain_class)
    = Throw JTypeError.
Proof.
  split; [reflexivity|]. split; [reflexivity|].
  exact (proj2 (schema_without_validator_always_throws sample_runtime
                  sample_key (JObject [("~standard", JNull)]) JUndefined
                  (JNumber 5) (body_argument plain_class) eq_refl eq_refl)).
Defined.

Lemma callable_schema_is_not_bound_witness :
  let callable :=
    JFunction (UserFunction 1)
      [("~standard", JObject [("validate", JFunction (UserFunction 1) [])])] in
  is_nullish (get_property callable "expectedType") = true /\
  truthy (metatype (body_argument JUndefined)) = false /\
  transform sample_runtime sample_key (constructor callable JUndefined)
            (JString "not a number") (body_argument JUndefined)
    = Return (JString "not a number").
Proof.
  cbv zeta. split; [reflexivity|]. split; [reflexivity|].
  exact (proj2 (proj2 (callable_schema_is_not_bound sample_runtime sample_key
           JUndefined (JString "not a number") (body_argument JUndefined)
           (UserFunction 1)
           [("~standard", JObject [("validate", JFunction (UserFunction 1) [])])]
           eq_refl eq_refl))).
Defined.

Lemma expected_type_overrides_metatype_witness :
  let this := constructor (with_option "expectedType" dto_class) JUndefined in
  is_nullish (get_property (options this) "expectedType") = false /\
  transform sample_runtime sample_key this (JNumber 5)
            (body_argument plain_class)
  = transform sample_runtime sample_key this (JNumber 5)
              (body_argument JUndefined).
Proof.
  cbv zeta. split; [reflexivity|].
  exact (expected_type_overrides_metatype sample_runtime sample_key
           (constructor (with_option "expectedType" dto_class) JUndefined)
           (JNumber 5) (body_argument plain_class) (body_argument JUndefined)
           eq_refl eq_refl).
Defined.

Lemma kind_and_data_play_no_part_witness :
  transform sample_runtime sample_key (constructor JUndefined JUndefined)
            (JString "x") (body_argument dto_class)
  = transform sample_runtime sample_key (constructor JUndefined JUndefined)
              (JString "x") (query_argument dto_class).
Proof.
  exact (kind_and_data_play_no_part sample_runtime sample_key
           (constructor JUndefined JUndefined) (JString "x")
           (body_argument dto_class) (query_argument dto_class)
           eq_refl eq_refl).
Defined.

Lemma getSchema_returns_for_classes_witness :
  is_object (expected_type (constructor JUndefined JUndefined)
                           (body_argument decorated_class)) = true /\
  exists s, getSchema sample_runtime sample_key
              (constructor JUndefined JUndefined)
              (body_argument decorated_class) = Return s.
Proof.
  split; [reflexivity|].
  exact (getSchema_returns_for_classes sample_runtime sample_key
           JUndefined JUndefined (body_argument decorated_class)
           (or_intror eq_refl)).
Defined.

Lemma type_driven_pipe_acts_as_bound_witness :
  getSchema sample_runtime sample_key (constructor JUndefined JUndefined)
            (body_argument dto_class) = Return (sample_schema 1) /\
  transform sample_runtime sample_key (constructor JUndefined JUndefined)
            (JString "x") (body_argument dto_class)
  = transform sample_runtime sample_key
              (constructor (sample_schema 1) JUndefined)
              (JString "x") (custom_argument plain_class).
Proof.
  split; [reflexivity|].
  exact (type_driven_pipe_acts_as_bound sample_runtime sample_key
           JUndefined JUndefined (sample_schema 1) (JString "x")
           (body_argument dto_class) (custom_argument plain_class)
           eq_refl eq_refl eq_refl).
Defined.

Lemma resolved_pipe_returns_validated_value_witness :
  getSchema sample_runtime sample_key (constructor JUndefined JUndefined)
            (body_argument decorated_class) = Return (sample_schema 1) /\
  transform sample_runtime sample_key (constructor JUndefined JUndefined)
            (JNumber 5) (body_argument decorated_class)
    = Return (JNumber 5).
Proof.
  split; [reflexivity|].
  exact (resolved_pipe_returns_validated_value sample_runtime sample_key
           (constructor JUndefined JUndefined) (sample_schema 1) (JNumber 5)
           (body_argument decorated_class)
           (JObject [("value", JNumber 5)]) eq_refl eq_refl eq_refl eq_refl).
Defined.

Lemma normalizePath_is_idempotent_witness :
  traverse segment_of_js [JString "user"; JObject [("key", JString "age")]]
    = Some [RawKey (KeyString "user"); PathSegment (KeyString "age")] /\
  exists keys : list JsValue,
    normalizePath (JArray [JString "user"; JObject [("key", JString "age")]])
      = Return (JArray keys) /\
    length keys = 2 /\
    Forall (fun k => key_of_js k <> None) keys /\
    normalizePath (JArray keys) = Return (JArray keys).
Proof.
  split; [reflexivity|].
  exact (normalizePath_is_idempotent
           [JString "user"; JObject [("key", JString "age")]]
           [RawKey (KeyString "user"); PathSegment (KeyString "age")]
           eq_refl).
Defined.

